(** * neo-seo: the CSV upload relay of [server.js]

    [server.js] is an Express application with two routes.  [GET /] sends
    an HTML upload form; [POST /upload] takes the file that multer stored
    for the field [csvFile], spawns [python3 run_dealerships.py <in> <out>]
    and answers from the listener of the child's ['close'] event.

    The embedding follows the file top to bottom.  The handler and its
    listeners are functions on an explicit request state (the response
    object, the console, the spawned command, the filesystem); the events
    of the Node runtime that call the listeners are the labels of a step
    function.  The libraries the file calls ([path], [multer], [express],
    [child_process]) appear through the interface the source uses, with
    the behaviour of theirs that decides what a client gets: what multer
    takes up from a multipart body, how Express answers a handler that
    throws, how [res.send] and [res.download] treat conditional and range
    requests, and what a transfer that breaks half way leaves behind. *)

From stdpp Require Import gmap strings list fin_maps pretty.
From Stdlib Require Import ZArith Ascii.

Open Scope Z_scope.

(** ** JavaScript values *)

Module Js.

(** The first argument of the ['close'] listener: a number when the child
    exited by itself, [null] when a signal ended it. *)
Inductive code := null | number (n : Z).

(** [code === 0] *)
Definition strict_eq_0 (c : code) : bool :=
  match c with
  | number n => n =? 0
  | null => false
  end.

(** [`${code}`] *)
Definition to_string (c : code) : string :=
  match c with
  | number n => pretty n
  | null => "null"
  end.

(** An error value: its class and what identifies it (the message, or for
    an error of multer its code and the field it is about). *)
Inductive error :=
| TypeError (msg : string)
| Error (msg : string)
| MulterError (code field : string).

End Js.

(** ** Text helpers *)

(** The double quote and the line feed, which the template literals of the
  source contain. *)
Definition dq : string := String "034"%char EmptyString.

Definition quoted (s : string) : string := dq +:+ s +:+ dq.


(** The bytes on the wire of a text body. *)
Definition text (s : string) : list Byte.byte := String.list_byte_of_string s.

(** [starts_with needle hay]: what follows [needle] at the head of [hay]. *)
Fixpoint starts_with (needle hay : string) : option string :=
  match needle, hay with
  | EmptyString, _ => Some hay
  | String a needle', String b hay' =>
      if Ascii.eqb a b then starts_with needle' hay' else None
  | String _ _, EmptyString => None
  end.



(** ** [path.join], POSIX flavour

  Used to run the model on concrete directories; the theorems below hold
  for any [path.join]. *)

Module Path.

Fixpoint split_go (cur : string) (s : string) : list string :=
  match s with
  | EmptyString => [String.rev cur]
  | String c rest =>
      if Ascii.eqb c "/"%char then String.rev cur :: split_go EmptyString rest
      else split_go (String c cur) rest
  end.

Definition split (s : string) : list string := split_go EmptyString s.

(** Drops empty and [.] segments and resolves [..] against the segments
    kept so far ([acc], innermost first). *)
Fixpoint resolve (above : bool) (segs acc : list string) : list string :=
  match segs with
  | [] => rev acc
  | s :: rest =>
      if bool_decide (s = "" ∨ s = ".") then resolve above rest acc
      else if bool_decide (s = "..") then
        match acc with
        | top :: acc' =>
            if bool_decide (top = "..") then resolve above rest (s :: acc)
            else resolve above rest acc'
        | [] => if above then resolve above rest [s] else resolve above rest []
        end
      else resolve above rest (s :: acc)
  end.

Definition is_absolute (s : string) : bool :=
  match s with String c _ => Ascii.eqb c "/"%char | EmptyString => false end.

Definition ends_with_sep (s : string) : bool := is_absolute (String.rev s).

(** As Node does: an empty relative result is [.], and a trailing
    separator is kept on whatever is not empty then, so that [./] stays
    [./]. *)
Definition normalize (p : string) : string :=
  match p with
  | EmptyString => "."
  | _ =>
      let abs := is_absolute p in
      let body := String.concat "/" (resolve (negb abs) (split p) []) in
      let body := if bool_decide (body = "") && negb abs then "." else body in
      let body := if negb (bool_decide (body = "")) && ends_with_sep p
                  then body +:+ "/" else body in
      if abs then "/" +:+ body else body
  end.

Definition join (parts : list string) : string :=
  match filter (λ s, s ≠ "") parts with
  | [] => "."
  | ps => normalize (String.concat "/" ps)
  end.

End Path.

(** ** Express: the request headers it reads and the response object *)

Module Express.

Inductive method := GET | POST.

(** What Express and the [send] library under [res.download] read from
    the request ([res.req]).  [range] is a header [Range: bytes=first-last];
    [cached] says that the request carries validators ([If-None-Match],
    [If-Modified-Since]) that match what the server is about to send, so
    that the freshness test of the library succeeds. *)
Record asked := mkAsked {
  verb : method;
  range : option (nat * nat);
  cached : bool
}.

(** A request without such headers. *)
Definition plain (m : method) : asked :=
  {| verb := m; range := None; cached := false |}.

Record response := mkResponse {
  statusCode : Z;
  headers : list (string * string);
  headersSent : bool;                  (* the status line and headers went out *)
  body : option (list Byte.byte)       (* [Some] once the response is ended *)
}.

(** A response nobody touched yet: Node's default status is 200. *)
Definition fresh : response :=
  {| statusCode := 200; headers := []; headersSent := false; body := None |}.

(** [res.status(n)] *)
Definition status (n : Z) (res : response) : response :=
  {| statusCode := n; headers := headers res;
     headersSent := headersSent res; body := body res |}.

(** [res.set(name, value)]: a header of that name is replaced. *)
Definition set (name value : string) (res : response) : response :=
  {| statusCode := statusCode res;
     headers := (name, value) :: filter (λ h, h.1 ≠ name) (headers res);
     headersSent := headersSent res;
     body := body res |}.

(** [req.fresh]: only for [GET], only on a 2xx or 304 status. *)
Definition req_fresh (a : asked) (res : response) : bool :=
  match verb a with
  | GET =>
      (((200 <=? statusCode res) && (statusCode res <? 300))
       || (statusCode res =? 304)) && cached a
  | POST => false
  end.

(** [res.send(b)].  After the headers went out it throws.  A fresh
    request is answered 304, and a 204 or 304 has no body. *)
Definition send (a : asked) (b : list Byte.byte) (res : response)
    : Js.error + response :=
  if headersSent res then
    inl (Js.Error "Cannot set headers after they are sent to the client")
  else
    let n := if req_fresh a res then 304 else statusCode res in
    let b := if (n =? 204) || (n =? 304) then [] else b in
    inr {| statusCode := n; headers := headers res;
           headersSent := true; body := Some b |}.

(** The header value [res.download] derives from the file name it is
    given. *)
Definition contentDisposition (filename : string) : string :=
  "attachment; filename=" +:+ quoted filename.

(** What [send] makes of a file for a request: the whole of it, one byte
    range (206), nothing because the client has it (304), or an error
    because the range lies outside the file (416, given to the callback).
    The freshness test comes first. *)
Inductive served :=
| whole (b : list Byte.byte)
| partial (first last : nat) (b : list Byte.byte)
| not_modified
| unsatisfiable.

Definition serve (a : asked) (content : list Byte.byte) : served :=
  if cached a then not_modified
  else
    match range a with
    | None => whole content
    | Some (first, last) =>
        if ((first <=? last) && (first <? length content))%nat then
          let last := (last `min` (length content - 1))%nat in
          partial first last (take (S (last - first)) (drop first content))
        else unsatisfiable
    end.

(** [Content-Range: bytes first-last/size] *)
Definition contentRange (first last size : nat) : string :=
  "bytes " +:+ pretty first +:+ "-" +:+ pretty last +:+ "/" +:+ pretty size.

(** The status and headers with which [send] starts to stream a file, for
    [res.download(_, filename)]. *)
Definition stream_head (filename : string) (size : nat) (s : served)
    (res : response) : option response :=
  match s with
  | whole _ =>
      Some {| statusCode := 200;
              headers := headers (set "Content-Disposition"
                                    (contentDisposition filename) res);
              headersSent := true; body := body res |}
  | partial first last _ =>
      Some {| statusCode := 206;
              headers := headers (set "Content-Range" (contentRange first last size)
                                    (set "Content-Disposition"
                                       (contentDisposition filename) res));
              headersSent := true; body := body res |}
  | not_modified | unsatisfiable => None
  end.

(** The response once [send] is done with the file without an error.  A
    304 loses the [Content-] headers and has no body; it cannot follow
    headers that went out already. *)
Definition stream_end (filename : string) (size : nat) (s : served)
    (res : response) : option response :=
  match s with
  | whole b | partial _ _ b =>
      match stream_head filename size s res with
      | Some r => Some {| statusCode := statusCode r; headers := headers r;
                          headersSent := true; body := Some b |}
      | None => None
      end
  | not_modified =>
      if headersSent res then None
      else Some {| statusCode := 304;
                   headers := filter (λ h, starts_with "Content-" h.1 = None)
                                (headers res);
                   headersSent := true; body := Some [] |}
  | unsatisfiable => None
  end.

End Express.

(** ** multer: the parts of the body, the file object, the options *)

Module Multer.

(** A file part of the multipart body as the client sent it. *)
Record field := mkField {
  field_name : string;
  field_filename : string;
  field_mimetype : string;
  field_content : list Byte.byte
}.

(** A file part multer takes up: it has a file name. *)
Record part := mkPart {
  part_originalname : string;
  part_mimetype : string;
  part_content : list Byte.byte
}.

(** [req.file] *)
Record file := mkFile {
  fieldname : string;
  originalname : string;
  mimetype : string;
  destination : string;
  filename : string;
  path : string;
  size : nat
}.

(** The options [multer(...)] is given.  [server.js] passes [dest] only;
    [fileFilter] is the hook by which an application would refuse files. *)
Record options := mkOptions {
  dest : string;
  fileFilter : option (part → bool)
}.

Definition is_sep (c : ascii) : bool :=
  Ascii.eqb c "/"%char || Ascii.eqb c "092"%char.

Fixpoint last_segment (cur : string) (s : string) : string :=
  match s with
  | EmptyString => String.rev cur
  | String c rest =>
      if is_sep c then last_segment EmptyString rest
      else last_segment (String c cur) rest
  end.

(** The file name the multipart parser hands on: what follows the last
    slash or backslash, and nothing for [.] and [..]. *)
Definition basename (s : string) : string :=
  let b := last_segment EmptyString s in
  if bool_decide (b = "." ∨ b = "..") then "" else b.

(** A part without a file name is passed over; the others are taken up
    under their base name. *)
Definition taken (fld : field) : option part :=
  let name := basename (field_filename fld) in
  if bool_decide (name = "") then None
  else Some {| part_originalname := name;
               part_mimetype := field_mimetype fld;
               part_content := field_content fld |}.

(** [upload.single(name)] on the file parts of a body, in their order:
    one file in the field [name] is welcome, any other file is an error
    ([LIMIT_UNEXPECTED_FILE], with the field of that file). *)
Fixpoint receive (name : string) (seen : option part) (body : list field)
    : Js.error + option part :=
  match body with
  | [] => inr seen
  | fld :: rest =>
      match taken fld with
      | None => receive name seen rest
      | Some p =>
          if bool_decide (field_name fld = name) then
            match seen with
            | None => receive name (Some p) rest
            | Some _ => inl (Js.MulterError "LIMIT_UNEXPECTED_FILE" (field_name fld))
            end
          else inl (Js.MulterError "LIMIT_UNEXPECTED_FILE" (field_name fld))
      end
  end.

End Multer.

(** ** Sample data for running the model *)

Module Sample.

Definition dirname : string := "/srv/app".

(** An upload whose name does not end in [.csv]. *)
Definition notes : Multer.part :=
  {| Multer.part_originalname := "notes.txt";
     Multer.part_mimetype := "text/plain";
     Multer.part_content := text "dealer,city" |}.

(** [req.file] as multer leaves it for [notes]. *)
Definition stored : Multer.file :=
  {| Multer.fieldname := "csvFile";
     Multer.originalname := "notes.txt";
     Multer.mimetype := "text/plain";
     Multer.destination := "uploads/";
     Multer.filename := "3f9a";
     Multer.path := "uploads/3f9a";
     Multer.size := 11 |}.

Definition processed : string := "/srv/app/uploads/processed.csv".

(** [notes] as it comes in the body, in the field of the form. *)
Definition notes_field : Multer.field :=
  {| Multer.field_name := "csvFile";
     Multer.field_filename := "notes.txt";
     Multer.field_mimetype := "text/plain";
     Multer.field_content := text "dealer,city" |}.



(** A page for an error, as Express would print one. *)
Definition error_page (e : Js.error) : list Byte.byte :=
  match e with
  | Js.TypeError msg => text ("TypeError: " +:+ msg)
  | Js.Error msg => text ("Error: " +:+ msg)
  | Js.MulterError code field => text ("MulterError: " +:+ code +:+ " " +:+ field)
  end.

(** [Range: bytes=0-0] on an upload, and an upload or page request whose
    validators match. *)
Definition first_byte : Express.asked :=
  {| Express.verb := Express.POST; Express.range := Some (0, 0)%nat;
     Express.cached := false |}.

Definition revalidating (m : Express.method) : Express.asked :=
  {| Express.verb := m; Express.range := None; Express.cached := true |}.

End Sample.

(** ** The server *)

Section Server.

(** The directory of [server.js], the [path.join] of the platform, and the
    page Express prints for an error that no handler took care of. *)
Variable __dirname : string.
Variable path_join : list string → string.
Variable error_page : Js.error → list Byte.byte.

(** The files on disk, by path. *)
Abbreviation files := (gmap string (list Byte.byte)).

(** *** [const upload = multer({ dest: 'uploads/' })] *)

Definition upload : Multer.options :=
  {| Multer.dest := "uploads/"; Multer.fileFilter := None |}.

Definition accepts (opts : Multer.options) (p : Multer.part) : bool :=
  match Multer.fileFilter opts with
  | Some keep => keep p
  | None => true
  end.

(** [upload.single(name)], the storing: [incoming] is the file multer took
    up for the field [name], if any (see [Multer.receive]), and
    [generated] the random name multer draws for it.  An accepted file is
    written below [dest] and becomes [req.file]; with no file, [req.file]
    stays [undefined]. *)
Definition single (opts : Multer.options) (name : string)
    (incoming : option Multer.part) (generated : string) (fs : files)
    : option Multer.file * files :=
  match incoming with
  | Some p =>
      if accepts opts p then
        let path := path_join [Multer.dest opts; generated] in
        (Some {| Multer.fieldname := name;
                 Multer.originalname := Multer.part_originalname p;
                 Multer.mimetype := Multer.part_mimetype p;
                 Multer.destination := Multer.dest opts;
                 Multer.filename := generated;
                 Multer.path := path;
                 Multer.size := length (Multer.part_content p) |},
         <[path := Multer.part_content p]> fs)
      else (None, fs)
  | None => (None, fs)
  end.

(** The request as the route handler reads it. *)
Record request := mkRequest { file : option Multer.file }.

(** *** The state of one request *)

(** A call of [console.log] or [console.error], by its arguments. *)
Inductive arg := str (s : string) | obj (e : Js.error).

Inductive line := log (args : list arg) | error (args : list arg).

Inductive stage :=
| Idle                                   (* the handler has not run *)
| Spawned                                (* the child runs, the listeners wait *)
| Downloading (path filename : string)   (* [res.download] streams the file *)
| Responded                              (* the response is out *)
| Threw (e : Js.error).                  (* the handler or a listener threw *)

Record state := mkState {
  fs : files;
  res : Express.response;
  asked : Express.asked;                 (* [res.req], for Express and [send] *)
  console : list line;                   (* oldest line first *)
  child : option (string * list string); (* command and arguments, of the last [spawn] *)
  spawns : nat;                          (* calls of [spawn] so far *)
  phase : stage
}.

(** A request came in. *)
Definition arrive (a : Express.asked) (fs0 : files) : state :=
  {| fs := fs0; res := Express.fresh; asked := a; console := [];
     child := None; spawns := 0; phase := Idle |}.

(** An upload request without range or validators. *)
Definition idle (fs0 : files) : state := arrive (Express.plain Express.POST) fs0.

Definition set_fs (f : files) (st : state) : state :=
  {| fs := f; res := res st; asked := asked st; console := console st;
     child := child st; spawns := spawns st; phase := phase st |}.

Definition set_res (r : Express.response) (st : state) : state :=
  {| fs := fs st; res := r; asked := asked st; console := console st;
     child := child st; spawns := spawns st; phase := phase st |}.

Definition set_phase (p : stage) (st : state) : state :=
  {| fs := fs st; res := res st; asked := asked st; console := console st;
     child := child st; spawns := spawns st; phase := p |}.

(** [console.log(...)] and [console.error(...)] *)
Definition console_log (args : list arg) (st : state) : state :=
  {| fs := fs st; res := res st; asked := asked st;
     console := console st ++ [log args];
     child := child st; spawns := spawns st; phase := phase st |}.

Definition console_error (args : list arg) (st : state) : state :=
  {| fs := fs st; res := res st; asked := asked st;
     console := console st ++ [error args];
     child := child st; spawns := spawns st; phase := phase st |}.

(** [spawn(cmd, args)] *)
Definition spawn (cmd : string) (args : list string) (st : state) : state :=
  {| fs := fs st; res := res st; asked := asked st; console := console st;
     child := Some (cmd, args); spawns := S (spawns st); phase := Spawned |}.

(** [throw e] *)
Definition throw (e : Js.error) (st : state) : state := set_phase (Threw e) st.

(** [res.status(n)] *)
Definition res_status (n : Z) (st : state) : state :=
  set_res (Express.status n (res st)) st.

(** [res.send(msg)] *)
Definition res_send (b : list Byte.byte) (st : state) : state :=
  match Express.send (asked st) b (res st) with
  | inr r => set_phase Responded (set_res r st)
  | inl e => throw e st
  end.

(** [res.download(path, filename, cb)]: the transfer starts; what comes of
    it are events of their own. *)
Definition res_download (path filename : string) (st : state) : state :=
  set_phase (Downloading path filename) st.

(** What Express does with an error that a middleware passed on or a
    route handler threw: while nothing went out, it answers 500 with its
    error page. *)
Definition finalhandler (e : Js.error) (st : state) : state :=
  if Express.headersSent (res st) then st
  else
    set_phase Responded
      (set_res {| Express.statusCode := 500;
                  Express.headers := Express.headers (res st);
                  Express.headersSent := true;
                  Express.body := Some (error_page e) |} st).

(** Express runs a route handler and catches what it throws. *)
Definition route (handler : request → state → state) (req : request)
    (st : state) : state :=
  let st := handler req st in
  match phase st with
  | Threw e => finalhandler e st
  | _ => st
  end.

(** *** [app.get('/', (req, res) => ...)] *)



(** *** [app.post('/upload', upload.single('csvFile'), (req, res) => ...)] *)

(** The two paths of the handler have no request in them. *)
Definition outputFile : string := path_join [__dirname; "uploads"; "processed.csv"].
Definition pythonScriptPath : string := path_join [__dirname; "run_dealerships.py"].

Definition app_post_upload (req : request) (st : state) : state :=
  match file req with
  | None =>
      (* [req.file.path] with [req.file] undefined *)
      throw (Js.TypeError "Cannot read properties of undefined (reading 'path')") st
  | Some f =>
      let inputFile := Multer.path f in
      spawn "python3" [pythonScriptPath; inputFile; outputFile] st
  end.

(** [process.stdout.on('data', ...)] *)
Definition on_stdout_data (data : string) (st : state) : state :=
  console_log [str ("Python STDOUT: " +:+ data)] st.

(** [process.stderr.on('data', ...)] *)
Definition on_stderr_data (data : string) (st : state) : state :=
  console_error [str ("Python STDERR: " +:+ data)] st.

(** The callback given to [res.download]. *)
Definition download_cb (err : option Js.error) (st : state) : state :=
  match err with
  | Some e =>
      let st := console_error [str "Error sending file:"; obj e] st in
      res_send (text "Error downloading processed file.") (res_status 500 st)
  | None => st
  end.

(** [process.on('close', ...)] *)
Definition on_close (code : Js.code) (st : state) : state :=
  let st := console_log [str ("Python script exited with code " +:+ Js.to_string code)] st in
  if Js.strict_eq_0 code then
    res_download outputFile "processed.csv" st
  else
    res_send (text "Python script failed.") (res_status 500 st).

(** *** The events of the runtime

    [FsWrite] is a file written by some process (the child of this request
    or of another one); no listener of [server.js] sees it.  [StdoutData],
    [StderrData] and [Close] call the listener registered for them.
    [ChildError] is the ['error'] event of the child (the command could
    not be started): [server.js] has no listener for it, so Node throws.
    [TransferHeaders] and [TransferStream] are the steps of the transfer
    [res.download] started: the file was found and the attachment header
    set on the response; the status line and the headers went out.
    [DownloadEnd] is the end of the transfer: [None] when [send] is done
    without an error, [Some e] when it failed, at whatever step, and the
    callback gets [e].  [Tick] is time going by: [server.js] sets no
    timer, so nothing of it runs.  A file written while it is streamed is
    read here as it is at the end; the theorems on the bytes sent ask for
    no such write. *)

Inductive event :=
| FsWrite (path : string) (content : list Byte.byte)
| StdoutData (data : string)
| StderrData (data : string)
| Close (code : Js.code)
| DownloadEnd (err : option Js.error)
| Tick
| ChildError (e : Js.error)
| TransferHeaders
| TransferStream.

(** [send] found the file: the header of [res.download] is set. *)
Definition transfer_headers (filename : string) (st : state) : state :=
  set_res (Express.set "Content-Disposition"
             (Express.contentDisposition filename) (res st)) st.

(** [send] starts to stream: status and headers go out. *)
Definition transfer_stream (filename : string) (content : list Byte.byte)
    (st : state) : option state :=
  match Express.stream_head filename (length content)
          (Express.serve (asked st) content) (res st) with
  | Some r => Some (set_res r st)
  | None => None
  end.

(** [send] is done without an error: the response is ended, then the
    callback runs without an error. *)
Definition download_ok (filename : string) (content : list Byte.byte)
    (st : state) : option state :=
  match Express.stream_end filename (length content)
          (Express.serve (asked st) content) (res st) with
  | Some r => Some (download_cb None (set_phase Responded (set_res r st)))
  | None => None
  end.

(** One event.  [None]: the event cannot happen in that state (no child,
    no transfer under way, headers that went out already, or a transfer
    of a file that is not there). *)
Definition step (st : state) (ev : event) : option state :=
  match ev with
  | FsWrite p content => Some (set_fs (<[p := content]> (fs st)) st)
  | StdoutData data =>
      match phase st with Spawned => Some (on_stdout_data data st) | _ => None end
  | StderrData data =>
      match phase st with Spawned => Some (on_stderr_data data st) | _ => None end
  | Close code =>
      match phase st with Spawned => Some (on_close code st) | _ => None end
  | ChildError e =>
      match phase st with Spawned => Some (throw e st) | _ => None end
  | TransferHeaders =>
      match phase st with
      | Downloading p filename =>
          if Express.headersSent (res st) then None
          else match fs st !! p with
               | Some _ => Some (transfer_headers filename st)
               | None => None
               end
      | _ => None
      end
  | TransferStream =>
      match phase st with
      | Downloading p filename =>
          if Express.headersSent (res st) then None
          else match fs st !! p with
               | Some content => transfer_stream filename content st
               | None => None
               end
      | _ => None
      end
  | DownloadEnd err =>
      match phase st with
      | Downloading p filename =>
          match err with
          | Some e => Some (download_cb (Some e) st)
          | None =>
              match fs st !! p with
              | Some content => download_ok filename content st
              | None => None
              end
          end
      | _ => None
      end
  | Tick => Some st
  end.

Fixpoint run (st : state) (evs : list event) : option state :=
  match evs with
  | [] => Some st
  | ev :: rest =>
      match step st ev with
      | Some st' => run st' rest
      | None => None
      end
  end.

(** A [POST /upload] for which multer took up [incoming]: the storing,
    then the handler. *)
Definition post_upload (incoming : option Multer.part) (generated : string)
    (fs0 : files) : state :=
  let '(f, fs1) := single upload "csvFile" incoming generated fs0 in
  app_post_upload {| file := f |} (idle fs1).


(** A [POST /upload] from the wire, with the headers [a] and the file
    parts [body]. *)
Definition post (a : Express.asked) (body : list Multer.field)
    (generated : string) (fs0 : files) : state :=
  match Multer.receive "csvFile" None body with
  | inl e => finalhandler e (arrive a fs0)
  | inr incoming =>
      let '(f, fs1) := single upload "csvFile" incoming generated fs0 in
      route app_post_upload {| file := f |} (arrive a fs1)
  end.



(** What may happen while the child runs ([chatter]) and while the file
    is streamed ([is_write], and with the steps of the transfer
    [is_transfer]). *)
Definition chatter (ev : event) : bool :=
  match ev with
  | FsWrite _ _ | StdoutData _ | StderrData _ | Tick => true
  | Close _ | DownloadEnd _ | ChildError _ | TransferHeaders | TransferStream => false
  end.

Definition is_write (ev : event) : bool :=
  match ev with
  | FsWrite _ _ | Tick => true
  | _ => false
  end.

Definition is_transfer (ev : event) : bool :=
  match ev with
  | FsWrite _ _ | Tick | TransferHeaders | TransferStream => true
  | _ => false
  end.


(** The files once the writes of [evs] are done. *)
Fixpoint fs_after (evs : list event) (f : files) : files :=
  match evs with
  | [] => f
  | FsWrite p content :: rest => fs_after rest (<[p := content]> f)
  | _ :: rest => fs_after rest f
  end.

(** The state the handler leaves for a request that carries the file [f]. *)
Definition started (f : Multer.file) (fs0 : files) : state :=
  app_post_upload {| file := Some f |} (idle fs0).

(** The same for a request with the headers [a]. *)
Definition started_with (a : Express.asked) (f : Multer.file) (fs0 : files)
    : state :=
  app_post_upload {| file := Some f |} (arrive a fs0).

(** The response is out, with status [n] and body [b]. *)
Definition answered (st : state) (n : Z) (b : list Byte.byte) : Prop :=
  phase st = Responded ∧ Express.statusCode (res st) = n
  ∧ Express.body (res st) = Some b.







(** *** What a run leaves behind *)

(** The console calls the listeners make for one event. *)
Definition lines_of (ev : event) : list line :=
  match ev with
  | StdoutData data => [log [str ("Python STDOUT: " +:+ data)]]
  | StderrData data => [error [str ("Python STDERR: " +:+ data)]]
  | Close code =>
      [log [str ("Python script exited with code " +:+ Js.to_string code)]]
  | DownloadEnd (Some e) => [error [str "Error sending file:"; obj e]]
  | DownloadEnd None | FsWrite _ _ | Tick | ChildError _
  | TransferHeaders | TransferStream => []
  end.

(** An event without the text of an output chunk and without the value of
    a code that is not [0]. *)
Definition shape (ev : event) : event :=
  match ev with
  | StdoutData _ => StdoutData ""
  | StderrData _ => StderrData ""
  | Close code => if Js.strict_eq_0 code then Close (Js.number 0) else Close Js.null
  | _ => ev
  end.

(** Two states that differ in their console at most. *)
Definition same_answer (a b : state) : Prop :=
  fs a = fs b ∧ res a = res b ∧ asked a = asked b ∧ child a = child b
  ∧ spawns a = spawns b ∧ phase a = phase b.

(** [ev] writes the file at [p]. *)
Definition writes_to (p : string) (ev : event) : bool :=
  match ev with
  | FsWrite q _ => bool_decide (q = p)
  | _ => false
  end.

(** The header of a file sent by [res.download(_, 'processed.csv')]. *)
Definition attachment : list (string * string) :=
  [("Content-Disposition", Express.contentDisposition "processed.csv")].

(** The transfer of [outputFile] is under way for a request without range
    or validators, and the file holds [content]. *)
Definition streaming (content : list Byte.byte) (st : state) : Prop :=
  phase st = Downloading outputFile "processed.csv"
  ∧ Express.range (asked st) = None ∧ Express.cached (asked st) = false
  ∧ Express.body (res st) = None
  ∧ (Express.headers (res st) = [] ∨ Express.headers (res st) = attachment)
  ∧ fs st !! outputFile = Some content.


(** *** Lemmas on strings *)




(** *** Lemmas on runs *)

Lemma run_app (st : state) (a b : list event) :
  run st (a ++ b) = run st a ≫= λ st', run st' b.
Proof.
  revert st. induction a as [|ev a IH]; intros st; simpl; [done|].
  destruct (step st ev) as [st'|]; simpl; [apply IH | done].
Qed.

Lemma step_chatter (st : state) (ev : event) :
  phase st = Spawned → chatter ev = true →
  ∃ st', step st ev = Some st' ∧ phase st' = Spawned ∧ res st' = res st
         ∧ child st' = child st ∧ fs st' = fs_after [ev] (fs st)
         ∧ asked st' = asked st.
Proof.
  intros Hph Hev. destruct ev; try discriminate; simpl; rewrite ?Hph; eauto 10.
Qed.

Lemma run_chatter (evs : list event) (st : state) :
  phase st = Spawned → forallb chatter evs = true →
  ∃ st', run st evs = Some st' ∧ phase st' = Spawned ∧ res st' = res st
         ∧ child st' = child st ∧ fs st' = fs_after evs (fs st)
         ∧ asked st' = asked st.
Proof.
  revert st. induction evs as [|ev evs IH]; intros st Hph Hall; simpl in *.
  - eauto 10.
  - apply andb_prop in Hall as [Hev Hall].
    destruct (step_chatter st ev Hph Hev)
      as (st1 & -> & Hph1 & Hres1 & Hch1 & Hfs1 & Ha1).
    destruct (IH st1 Hph1 Hall) as (st2 & Hrun & ? & Hres2 & Hch2 & Hfs2 & Ha2).
    exists st2. rewrite Hrun, Hres2, Hch2, Hfs2, Ha2, Hres1, Hch1, Hfs1, Ha1.
    repeat split; try done. by destruct ev.
Qed.

Lemma run_writes (evs : list event) (st : state) :
  forallb is_write evs = true →
  ∃ st', run st evs = Some st' ∧ phase st' = phase st ∧ res st' = res st
         ∧ child st' = child st ∧ console st' = console st
         ∧ fs st' = fs_after evs (fs st) ∧ asked st' = asked st.
Proof.
  revert st. induction evs as [|ev evs IH]; intros st Hall; simpl in *.
  - eauto 10.
  - apply andb_prop in Hall as [Hev Hall].
    destruct ev; try discriminate; simpl.
    + destruct (IH (set_fs (<[path := content]> (fs st)) st) Hall)
        as (st2 & ? & ? & ? & ? & ? & ? & ?). eauto 10.
    + destruct (IH st Hall) as (st2 & ? & ? & ? & ? & ? & ? & ?). eauto 10.
Qed.



Lemma fs_after_app (a b : list event) (f : files) :
  fs_after (a ++ b) f = fs_after b (fs_after a f).
Proof.
  revert f. induction a as [|ev a IH]; intros f; simpl; [done|].
  destruct ev; apply IH.
Qed.

Lemma started_with_state (a : Express.asked) (f : Multer.file) (fs0 : files) :
  phase (started_with a f fs0) = Spawned
  ∧ res (started_with a f fs0) = Express.fresh
  ∧ fs (started_with a f fs0) = fs0
  ∧ asked (started_with a f fs0) = a
  ∧ child (started_with a f fs0)
    = Some ("python3", [pythonScriptPath; Multer.path f; outputFile]).
Proof. done. Qed.


(** A 500 is never turned into a 304. *)
Lemma send_500 (a : Express.asked) (b : list Byte.byte) (r : Express.response) :
  Express.headersSent r = false →
  Express.send a b (Express.status 500 r)
  = inr {| Express.statusCode := 500; Express.headers := Express.headers r;
           Express.headersSent := true; Express.body := Some b |}.
Proof.
  intros Hs. unfold Express.send, Express.req_fresh. simpl. rewrite Hs.
  by destruct (Express.verb a).
Qed.


Lemma on_close_success (st : state) :
  phase (on_close (Js.number 0) st) = Downloading outputFile "processed.csv"
  ∧ res (on_close (Js.number 0) st) = res st
  ∧ fs (on_close (Js.number 0) st) = fs st
  ∧ child (on_close (Js.number 0) st) = child st
  ∧ asked (on_close (Js.number 0) st) = asked st.
Proof. done. Qed.

(** The run up to the moment the transfer ends: the child chatters, exits
    with 0, and files may still be written while the file goes out. *)
Lemma run_to_transfer_with (a : Express.asked) (f : Multer.file) (fs0 : files)
    (pre mid : list event) :
  forallb chatter pre = true → forallb is_write mid = true →
  ∃ st, run (started_with a f fs0) (pre ++ Close (Js.number 0) :: mid) = Some st
        ∧ phase st = Downloading outputFile "processed.csv"
        ∧ res st = Express.fresh
        ∧ fs st = fs_after (pre ++ mid) fs0
        ∧ asked st = a.
Proof.
  intros Hpre Hmid.
  destruct (started_with_state a f fs0) as (Hph & Hres & Hfs & Ha & _).
  destruct (run_chatter pre _ Hph Hpre)
    as (st1 & Hrun1 & Hph1 & Hres1 & _ & Hfs1 & Ha1).
  destruct (run_writes mid (on_close (Js.number 0) st1) Hmid)
    as (st2 & Hrun2 & Hph2 & Hres2 & _ & _ & Hfs2 & Ha2).
  exists st2. rewrite run_app, Hrun1. simpl. rewrite Hph1, Hrun2.
  destruct (on_close_success st1) as (Hp & Hr & Hf & _ & Hq).
  rewrite Hph2, Hres2, Hfs2, Ha2, Hp, Hr, Hf, Hq, Hres1, Hfs1, Ha1, Hres, Hfs, Ha,
    fs_after_app.
  done.
Qed.

Lemma run_to_transfer (f : Multer.file) (fs0 : files) (pre mid : list event) :
  forallb chatter pre = true → forallb is_write mid = true →
  ∃ st, run (started f fs0) (pre ++ Close (Js.number 0) :: mid) = Some st
        ∧ phase st = Downloading outputFile "processed.csv"
        ∧ res st = Express.fresh
        ∧ fs st = fs_after (pre ++ mid) fs0
        ∧ asked st = Express.plain Express.POST.
Proof. apply run_to_transfer_with. Qed.

(** *** The claims on [POST /upload] *)


Lemma serve_plain (a : Express.asked) (content : list Byte.byte) :
  Express.range a = None → Express.cached a = false →
  Express.serve a content = Express.whole content.
Proof. intros Hr Hc. unfold Express.serve. by rewrite Hr, Hc. Qed.

Lemma set_attachment (r : Express.response) :
  Express.headers r = [] ∨ Express.headers r = attachment →
  Express.headers (Express.set "Content-Disposition"
                     (Express.contentDisposition "processed.csv") r)
  = attachment.
Proof. unfold Express.set. simpl. by intros [-> | ->]. Qed.

Lemma step_streaming (content : list Byte.byte) (st st' : state) (ev : event) :
  streaming content st → is_transfer ev = true →
  writes_to outputFile ev = false → step st ev = Some st' →
  streaming content st'.
Proof.
  intros (Hph & Hr & Hc & Hb & Hh & Hf) Hev Hw Hstep. unfold streaming.
  destruct ev; try discriminate; simpl in Hstep.
  - inversion Hstep; subst. simpl. repeat split; try done.
    simpl in Hw. apply bool_decide_eq_false in Hw. by rewrite lookup_insert_ne.
  - by inversion Hstep; subst.
  - rewrite Hph, Hf in Hstep. destruct (Express.headersSent (res st)); [done|].
    inversion Hstep; subst. unfold transfer_headers. simpl.
    repeat split; try done. right. by apply set_attachment.
  - rewrite Hph, Hf in Hstep. destruct (Express.headersSent (res st)); [done|].
    unfold transfer_stream in Hstep. rewrite serve_plain in Hstep by done.
    simpl in Hstep. inversion Hstep; subst. simpl.
    repeat split; try done. right. by apply set_attachment.
Qed.

Lemma run_streaming (content : list Byte.byte) (evs : list event)
    (st st' : state) :
  streaming content st → forallb is_transfer evs = true →
  existsb (writes_to outputFile) evs = false → run st evs = Some st' →
  streaming content st'.
Proof.
  revert st. induction evs as [|ev evs IH]; intros st Hs Hall Hno Hrun;
    simpl in *.
  - by inversion Hrun; subst.
  - apply andb_prop in Hall as [Hev Hall].
    apply orb_false_elim in Hno as [Hw Hno].
    destruct (step st ev) as [st1|] eqn:Hstep; [|done].
    eapply IH; [|done..]. by eapply step_streaming.
Qed.

Lemma streaming_ends (content : list Byte.byte) (st : state) :
  streaming content st →
  ∃ st', step st (DownloadEnd None) = Some st' ∧ answered st' 200 content
         ∧ Express.headers (res st') = attachment.
Proof.
  intros (Hph & Hr & Hc & Hb & Hh & Hf). simpl. rewrite Hph, Hf.
  unfold download_ok. rewrite serve_plain by done. simpl.
  eexists. split; [done|]. unfold answered. simpl.
  repeat split. by apply set_attachment.
Qed.

(** C2: for a request that carries neither a [Range] header nor validators
    that match the output file, when the child exits with 0 and the
    output file, which nobody writes meanwhile, goes out whole, the
    response is 200, carries [Content-Disposition: attachment;
    filename="processed.csv"], and its body is the bytes of the output
    file.  [mid] is what happens while the file is streamed, the steps of
    the transfer included. *)
Theorem exit_0_answers_with_output_file (a : Express.asked)
    (f : Multer.file) (fs0 : files) (pre mid : list event)
    (content : list Byte.byte) (st1 : state) :
  Express.range a = None → Express.cached a = false →
  forallb chatter pre = true → forallb is_transfer mid = true →
  existsb (writes_to outputFile) mid = false →
  fs_after pre fs0 !! outputFile = Some content →
  run (started_with a f fs0) (pre ++ Close (Js.number 0) :: mid) = Some st1 →
  ∃ st, run (started_with a f fs0)
          (pre ++ Close (Js.number 0) :: mid ++ [DownloadEnd None]) = Some st
        ∧ answered st 200 content
        ∧ Express.headers (res st)
          = [("Content-Disposition",
              "attachment; filename=" +:+ quoted "processed.csv")].
Proof.
  intros Hr Hc Hpre Hmid Hno Hfile Hrun1.
  destruct (started_with_state a f fs0) as (Hph & Hres & Hfs & Ha & _).
  destruct (run_chatter pre _ Hph Hpre)
    as (stp & Hrunp & Hphp & Hresp & _ & Hfsp & Hap).
  rewrite run_app, Hrunp in Hrun1. simpl in Hrun1. rewrite Hphp in Hrun1.
  assert (streaming content (on_close (Js.number 0) stp)) as Hs.
  { unfold streaming. simpl. rewrite Hap, Ha, Hresp, Hres, Hfsp, Hfs.
    repeat split; try done. by left. }
  pose proof (run_streaming content mid _ st1 Hs Hmid Hno Hrun1) as Hs1.
  destruct (streaming_ends content st1 Hs1) as (st & Hstep & Hans & Hh).
  exists st. split; [|done].
  rewrite app_comm_cons, app_assoc, run_app, run_app, Hrunp. simpl.
  rewrite Hphp, Hrun1. simpl. simpl in Hstep. by rewrite Hstep.
Qed.

(** A transfer that fails before anything went out: the callback answers
    500 with the body [Error downloading processed file.]. *)
Lemma failed_download_answers_500 (f : Multer.file) (fs0 : files)
    (pre mid : list event) (e : Js.error) :
  forallb chatter pre = true → forallb is_write mid = true →
  ∃ st, run (started f fs0)
          (pre ++ Close (Js.number 0) :: mid ++ [DownloadEnd (Some e)]) = Some st
        ∧ answered st 500 (text "Error downloading processed file.").
Proof.
  intros Hpre Hmid.
  destruct (run_to_transfer f fs0 pre mid Hpre Hmid)
    as (st1 & Hrun & Hph & Hres & Hfs & Ha).
  exists (download_cb (Some e) st1). split.
  - rewrite app_comm_cons, app_assoc, run_app, Hrun. simpl. by rewrite Hph.
  - unfold download_cb, answered, res_send, res_status. simpl.
    by rewrite send_500, Hres by (by rewrite Hres).
Qed.

(** C3: the callback of [res.download] does not look at
    [res.headersSent].  When the transfer breaks after the status line
    and the headers went out, [res.status(500).send(...)] throws in the
    callback: no 500 and no [Error downloading processed file.] reach the
    client, who is left with the 200 that was begun. *)
Theorem failed_download_after_headers_throws (f : Multer.file) (fs0 : files)
    (pre mid : list event) (content : list Byte.byte) (e : Js.error) :
  forallb chatter pre = true → forallb is_write mid = true →
  fs_after (pre ++ mid) fs0 !! outputFile = Some content →
  ∃ st, run (started f fs0)
          (pre ++ Close (Js.number 0) :: mid
           ++ [TransferStream; DownloadEnd (Some e)]) = Some st
        ∧ (∃ e', phase st = Threw e')
        ∧ Express.statusCode (res st) = 500
        ∧ Express.body (res st) = None
        ∧ ¬ answered st 500 (text "Error downloading processed file.").
Proof.
  intros Hpre Hmid Hfile.
  destruct (run_to_transfer f fs0 pre mid Hpre Hmid)
    as (st1 & Hrun & Hph & Hres & Hfs & Ha).
  rewrite app_comm_cons, app_assoc, run_app, Hrun. simpl.
  rewrite Hph, Hres, Hfs, Hfile. simpl.
  unfold transfer_stream. rewrite serve_plain by (by rewrite Ha).
  rewrite Hres. simpl. rewrite Hph. simpl.
  eexists. split; [done|]. unfold answered. simpl.
  repeat split; [by eexists | by intros [? _]].
Qed.










(** *** The claim on [GET /] *)


(** *** More on the listeners *)

Lemma step_console (st st' : state) (ev : event) :
  step st ev = Some st' → console st' = console st ++ lines_of ev.
Proof.
  destruct ev as [p c|d|d|code|err| |e| |]; simpl; intros H.
  - inversion H; subst. simpl. by rewrite app_nil_r.
  - destruct (phase st); by inversion H.
  - destruct (phase st); by inversion H.
  - destruct (phase st); inversion H; subst. unfold on_close.
    destruct (Js.strict_eq_0 code); [done|].
    unfold res_send. by destruct (Express.send _ _ _).
  - destruct (phase st); try discriminate. destruct err as [e|].
    + inversion H; subst. unfold download_cb, res_send.
      by destruct (Express.send _ _ _).
    + destruct (fs st !! path); [|done]. unfold download_ok in H.
      destruct (Express.stream_end _ _ _ _); inversion H; subst.
      simpl. by rewrite app_nil_r.
  - inversion H; subst. by rewrite app_nil_r.
  - destruct (phase st); inversion H; subst. simpl. by rewrite app_nil_r.
  - destruct (phase st); try discriminate.
    destruct (Express.headersSent (res st)); [done|].
    destruct (fs st !! path); inversion H; subst. simpl. by rewrite app_nil_r.
  - destruct (phase st); try discriminate.
    destruct (Express.headersSent (res st)); [done|].
    destruct (fs st !! path); [|done]. unfold transfer_stream in H.
    destruct (Express.stream_head _ _ _ _); inversion H; subst.
    simpl. by rewrite app_nil_r.
Qed.





Lemma step_same (a b : state) (ev : event) :
  same_answer a b → option_Forall2 same_answer (step a ev) (step b (shape ev)).
Proof.
  destruct a as [fa ra qa ca cha na pa], b as [fb rb qb cb chb nb pb].
  intros (Hfs & Hres & Hq & Hch & Hn & Hph). simpl in *. subst.
  destruct ev as [p c|d|d|code|err| |e| |]; simpl.
  - by constructor.
  - destruct pb; by constructor.
  - destruct pb; by constructor.
  - destruct (Js.strict_eq_0 code) eqn:Hc; simpl; destruct pb; try by constructor.
    + constructor. unfold on_close. by rewrite Hc.
    + constructor. unfold on_close. rewrite Hc. unfold res_send. simpl.
      by destruct (Express.send _ _ _).
  - destruct err as [e|]; simpl; destruct pb; try by constructor.
    + constructor. unfold download_cb, res_send. simpl.
      by destruct (Express.send _ _ _).
    + destruct (fb !! path); [|constructor].
      unfold download_ok. simpl.
      destruct (Express.stream_end _ _ _ _); by constructor.
  - by constructor.
  - destruct pb; by constructor.
  - destruct pb; try by constructor.
    destruct (Express.headersSent rb); [constructor|].
    destruct (fb !! path); by constructor.
  - destruct pb; try by constructor.
    destruct (Express.headersSent rb); [constructor|].
    destruct (fb !! path); [|constructor].
    unfold transfer_stream. simpl.
    destruct (Express.stream_head _ _ _ _); by constructor.
Qed.

Lemma run_same (evs : list event) (a b : state) :
  same_answer a b →
  option_Forall2 same_answer (run a evs) (run b (shape <$> evs)).
Proof.
  revert a b. induction evs as [|ev evs IH]; intros a b Hab; simpl.
  - by constructor.
  - destruct (step_same a b ev Hab) as [a' b' Hab'|]; [by apply IH | constructor].
Qed.

Lemma same_answer_refl (a : state) : same_answer a a.
Proof. done. Qed.






(** *** Properties of the listeners beyond the claims *)

(** X1: the console calls of [server.js] are the transcript of the run:
    every stdout chunk a [console.log] and every stderr chunk a
    [console.error] of one string, the chunk after its prefix; the
    ['close'] event a [console.log] of the exit line with the code; a
    failed transfer a [console.error] of two arguments, the string
    [Error sending file:] and the error itself; in the order the events
    came, and nothing for any other event. *)
Theorem console_is_transcript (st st' : state) (evs : list event) :
  run st evs = Some st' → console st' = console st ++ (evs ≫= lines_of).
Proof.
  revert st. induction evs as [|ev evs IH]; intros st Hrun; simpl in Hrun.
  - inversion Hrun; subst. by rewrite app_nil_r.
  - destruct (step st ev) as [st1|] eqn:E; [|done].
    rewrite (IH _ Hrun), (step_console _ _ _ E), bind_cons. by rewrite app_assoc.
Qed.

(** X2: the client learns nothing of what the child printed, nor of which
    nonzero code (or signal) ended it: two runs whose events agree up to
    the text of the output chunks and the value of a code that is not 0
    end with the same response in the same phase, or are both
    impossible. *)
Theorem response_ignores_details (st : state) (evs1 evs2 : list event) :
  shape <$> evs1 = shape <$> evs2 →
  res <$> run st evs1 = res <$> run st evs2
  ∧ phase <$> run st evs1 = phase <$> run st evs2.
Proof.
  intros Hshape.
  pose proof (run_same evs1 st st (same_answer_refl st)) as H1.
  pose proof (run_same evs2 st st (same_answer_refl st)) as H2.
  rewrite Hshape in H1.
  destruct H1 as [a1 b (_ & Hr1 & _ & _ & _ & Hp1)|];
    inversion H2 as [a2 b' (_ & Hr2 & _ & _ & _ & Hp2)|]; subst; simpl; [|done].
  by rewrite Hr1, Hr2, Hp1, Hp2.
Qed.







End Server.

(** ** The model at work on [/srv/app] *)

Module Run.

Import Sample.

Example join_dirname :
  Path.join [dirname; "uploads"; "processed.csv"] = processed.
Proof. reflexivity. Qed.

Example join_dest : Path.join ["uploads/"; "3f9a"] = "uploads/3f9a".
Proof. reflexivity. Qed.

Example join_dots : Path.join ["/a/b"; "../c"; "./d/"] = "/a/c/d/".
Proof. reflexivity. Qed.

Example join_here : Path.join ["./"] = "./" ∧ Path.join ["."] = "." ∧ Path.join ["/"] = "/".
Proof. done. Qed.

Example basename_strips_directories :
  Multer.basename "C:\data\cars.csv" = "cars.csv"
  ∧ Multer.basename "reports/" = "" ∧ Multer.basename ".." = "".
Proof. done. Qed.

Example upload_spawns :
  child (post_upload dirname Path.join (Some notes) "3f9a" ∅)
  = Some ("python3", ["/srv/app/run_dealerships.py"; "uploads/3f9a"; processed]).
Proof. reflexivity. Qed.

Example upload_is_stored :
  single Path.join upload "csvFile" (Some notes) "3f9a" ∅
  = (Some stored, {[ "uploads/3f9a" := text "dealer,city" ]}).
Proof. reflexivity. Qed.

Example upload_from_the_wire :
  post dirname Path.join error_page (Express.plain Express.POST)
    [notes_field] "3f9a" ∅
  = post_upload dirname Path.join (Some notes) "3f9a" ∅.
Proof. reflexivity. Qed.

(** A second file in the field is one too many. *)
Example two_files :
  Multer.receive "csvFile" None [notes_field; notes_field]
  = inl (Js.MulterError "LIMIT_UNEXPECTED_FILE" "csvFile").
Proof. reflexivity. Qed.

(** Stderr goes to the console of the server, not to the client. *)
Example failure_console :
  console <$> run dirname Path.join (started dirname Path.join stored ∅)
                [StderrData "Traceback"; Close (Js.number 2)]
  = Some [error [str "Python STDERR: Traceback"];
          log [str "Python script exited with code 2"]].
Proof. reflexivity. Qed.

(** The child of another request wrote the shared output file last: this
    request answers with those bytes. *)
Example shared_output_file :
  (λ st, Express.body (res st))
    <$> run dirname Path.join (started dirname Path.join stored ∅)
          [FsWrite processed (text "mine"); FsWrite processed (text "theirs");
           Close (Js.number 0); DownloadEnd None]
  = Some (Some (text "theirs")).
Proof. reflexivity. Qed.

(** A transfer cannot end well on a file that is not there. *)
Example no_output_file :
  run dirname Path.join (started dirname Path.join stored ∅)
    [Close (Js.number 0); DownloadEnd None] = None.
Proof. reflexivity. Qed.

(** A transfer that fails after the header was set but before anything
    went out: the 500 carries the attachment header. *)
Example late_failure_keeps_the_header :
  (λ st, (Express.statusCode (res st), Express.headers (res st)))
    <$> run dirname Path.join
          (started dirname Path.join stored {[ processed := text "a,b" ]})
          [Close (Js.number 0); TransferHeaders; DownloadEnd (Some (Js.Error "EIO"))]
  = Some (500, attachment).
Proof. reflexivity. Qed.

(** The command cannot be started: nobody listens to the ['error'] event
    and the request is never answered. *)
Example no_python :
  (λ st, (phase st, Express.body (res st)))
    <$> run dirname Path.join (started dirname Path.join stored ∅)
          [ChildError (Js.Error "spawn python3 ENOENT")]
  = Some (Threw (Js.Error "spawn python3 ENOENT"), None).
Proof. reflexivity. Qed.


(** With [Range: bytes=0-0] the same run ends in a 206 with one byte, and
    with validators that match in a 304 with no body: neither is the 200
    with the whole file. *)
Lemma exit_0_is_not_always_200 :
  (∃ st, run dirname Path.join
           (started_with dirname Path.join first_byte stored
              {[ processed := text "a,b" ]})
           [Close (Js.number 0); DownloadEnd None] = Some st
         ∧ Express.statusCode (res st) = 206
         ∧ Express.body (res st) = Some (text "a")
         ∧ ¬ answered st 200 (text "a,b"))
  ∧ (∃ st, run dirname Path.join
             (started_with dirname Path.join (revalidating Express.POST) stored
                {[ processed := text "a,b" ]})
             [Close (Js.number 0); DownloadEnd None] = Some st
           ∧ Express.statusCode (res st) = 304
           ∧ Express.body (res st) = Some []
           ∧ ¬ answered st 200 (text "a,b")).
Proof.
  split; (eexists; split; [reflexivity|]);
    (repeat split; [by vm_compute..|]); intros (_ & H & _); by vm_compute in H.
Qed.

Lemma exit_0_answers_with_output_file_witness :
  ∃ st, run dirname Path.join
          (started_with dirname Path.join (Express.plain Express.POST) stored ∅)
          ([FsWrite processed (text "a,b")]
           ++ Close (Js.number 0) :: [Tick; TransferHeaders; TransferStream]
           ++ [DownloadEnd None]) = Some st
        ∧ answered st 200 (text "a,b")
        ∧ Express.headers (res st)
          = [("Content-Disposition",
              "attachment; filename=" +:+ quoted "processed.csv")].
Proof.
  eapply (exit_0_answers_with_output_file dirname Path.join
            (Express.plain Express.POST) stored ∅
            [FsWrite processed (text "a,b")] [Tick; TransferHeaders; TransferStream]
            (text "a,b")); reflexivity.
Defined.

Lemma failed_download_after_headers_throws_witness :
  ∃ st, run dirname Path.join (started dirname Path.join stored ∅)
          ([StdoutData "done"; FsWrite processed (text "a,b")]
           ++ Close (Js.number 0) :: []
           ++ [TransferStream; DownloadEnd (Some (Js.Error "EPIPE"))]) = Some st
        ∧ (∃ e', phase st = Threw e')
        ∧ Express.statusCode (res st) = 500
        ∧ Express.body (res st) = None
        ∧ ¬ answered st 500 (text "Error downloading processed file.").
Proof.
  apply (failed_download_after_headers_throws dirname Path.join stored ∅
           [StdoutData "done"; FsWrite processed (text "a,b")] []
           (text "a,b") (Js.Error "EPIPE")); reflexivity.
Defined.













Lemma console_is_transcript_witness :
  let st0 := started dirname Path.join stored ∅ in
  console (on_close dirname Path.join (Js.number 3)
             (on_stderr_data "Traceback" (on_stdout_data "row 1" st0)))
  = console st0
    ++ ([StdoutData "row 1"; StderrData "Traceback"; Close (Js.number 3)]
        ≫= lines_of).
Proof.
  apply (console_is_transcript dirname Path.join
           (started dirname Path.join stored ∅) _
           [StdoutData "row 1"; StderrData "Traceback"; Close (Js.number 3)]).
  reflexivity.
Defined.

Lemma response_ignores_details_witness :
  let st0 := started dirname Path.join stored ∅ in
  res <$> run dirname Path.join st0 [StderrData "KeyError: vin"; Close (Js.number 1)]
  = res <$> run dirname Path.join st0 [StderrData "Killed"; Close Js.null]
  ∧ phase <$> run dirname Path.join st0 [StderrData "KeyError: vin"; Close (Js.number 1)]
    = phase <$> run dirname Path.join st0 [StderrData "Killed"; Close Js.null].
Proof.
  apply (response_ignores_details dirname Path.join
           (started dirname Path.join stored ∅)
           [StderrData "KeyError: vin"; Close (Js.number 1)]
           [StderrData "Killed"; Close Js.null]).
  reflexivity.
Defined.







End Run.
